(** * generate_api_key.py: the credential-provisioning run

    A shallow embedding of [src/python/generate_api_key.py].  The script is
    one coroutine, [generate_api_key], run to completion by [asyncio.run].
    It reads [PRIVATE_KEY] from the process environment, builds a
    [ClobClient], awaits [client.create_api_key()] and prints the outcome.

    The collaborators that live outside the script (the environment, the
    client library) are gathered in a [world]; the effects of the script
    (console lines, the constructor call, the provisioning call) are
    recorded, in program order, in a trace of [event]s. *)

From Stdlib Require Import ZArith Ascii String List Lia.
From stdpp Require Import base option strings gmap.

Import ListNotations.
Local Open Scope Z_scope.

(** ** Python strings *)

Module PyStr.

(** The line terminator written by [print] after its argument. *)
Definition nl : string := String (ascii_of_nat 10) EmptyString.

(** [s.startswith(p)] *)
Fixpoint startswith (s p : string) : bool :=
  match p with
  | EmptyString => true
  | String c p' =>
      match s with
      | EmptyString => false
      | String d s' => if Ascii.eqb c d then startswith s' p' else false
      end
  end.

(** [needle in s]: the needle starts at some position of [s]. *)
Fixpoint contains (needle s : string) : bool :=
  startswith s needle ||
  match s with
  | EmptyString => false
  | String _ s' => contains needle s'
  end.

(** [s * n] *)
Fixpoint repeat (s : string) (n : nat) : string :=
  match n with
  | O => EmptyString
  | S n' => s +:+ repeat s n'
  end.

(** Truthiness of an optional string: [None] and the empty string are
    falsy, every other string is truthy. *)
Definition truthy (o : option string) : bool :=
  match o with
  | None => false
  | Some EmptyString => false
  | Some (String _ _) => true
  end.

(** [repr(k)] of a plain key, the text of [str(KeyError(k))]. *)
Definition repr (k : string) : string := "'" +:+ k +:+ "'".

End PyStr.

(** ** Exceptions *)

(** The instances of Python's [Exception] that travel through the script.
    [Exception msg] is any such instance whose [str] is [msg]; [KeyError k]
    is the one raised by a failing subscript [d[k]].  [SystemExit], which
    [sys.exit] raises, is not an instance of [Exception]: it is kept apart,
    as the [Exited] outcome below. *)
Inductive pyexc : Type :=
| Exception (msg : string)
| KeyError (key : string).

(** [str(e)] *)
Definition str (e : pyexc) : string :=
  match e with
  | Exception msg => msg
  | KeyError k => PyStr.repr k
  end.

(** ** The world outside the script *)

(** A constructed [ClobClient]: the three keyword arguments it was built
    from. *)
Record client : Type := Client {
  host : string;
  chain_id : Z;
  key : string
}.

(** - [environ] is [os.environ] once [load_dotenv()] has run;
    - [ClobClient_init c] is [None] when the constructor returns and
      [Some msg] when it raises an instance of [Exception] whose text is
      [msg];
    - [create_api_key c] is what awaiting [client.create_api_key()] gives:
      [inl msg] for an instance of [Exception] with text [msg], [inr d]
      for a returned mapping [d] from field names to the text their
      values are printed as. *)
Record world : Type := World {
  environ : gmap string string;
  ClobClient_init : client -> option string;
  create_api_key : client -> string + gmap string string
}.

(** ** Effects *)

Inductive event : Type :=
| EvPrint (text : string)
| EvClobClient (c : client)
| EvCreateApiKey (c : client).

Inductive outcome (A : Type) : Type :=
| Returned (a : A)
| Raised (e : pyexc)
| Exited (code : Z).
Arguments Returned {A} a.
Arguments Raised {A} e.
Arguments Exited {A} code.

(** A computation extends the trace and returns, raises an [Exception], or
    raises [SystemExit]. *)
Definition M (A : Type) : Type := list event -> outcome A * list event.

#[global] Instance M_ret : MRet M := fun A a t => (Returned a, t).

#[global] Instance M_bind : MBind M := fun A B f m t =>
  match m t with
  | (Returned a, t') => f a t'
  | (Raised e, t') => (Raised e, t')
  | (Exited code, t') => (Exited code, t')
  end.

Definition raise {A} (e : pyexc) : M A := fun t => (Raised e, t).

Definition emit (ev : event) : M unit := fun t => (Returned tt, t ++ [ev]).

(** [try: body / except Exception as e: handler e].  [SystemExit] is not
    an instance of [Exception] and passes through. *)
Definition try_except {A} (body : M A) (handler : pyexc -> M A) : M A :=
  fun t =>
    match body t with
    | (Returned a, t') => (Returned a, t')
    | (Raised e, t') => handler e t'
    | (Exited code, t') => (Exited code, t')
    end.

Definition print (text : string) : M unit := emit (EvPrint text).

(** [sys.exit(code)] *)
Definition sys_exit {A} (code : Z) : M A := fun t => (Exited code, t).

(** [d[k]] on a mapping. *)
Definition getitem (d : gmap string string) (k : string) : M string :=
  match d !! k with
  | Some v => mret v
  | None => raise (KeyError k)
  end.

Section Script.

Variable w : world.

(** [os.getenv(name)] *)
Definition getenv (name : string) : M (option string) :=
  mret (environ w !! name).

(** [ClobClient(host=h, chain_id=c, key=k)] *)
Definition ClobClient (h : string) (c : Z) (k : string) : M client :=
  let cl := Client h c k in
  emit (EvClobClient cl);;
  match ClobClient_init w cl with
  | None => mret cl
  | Some msg => raise (Exception msg)
  end.

(** [await client.create_api_key()] *)
Definition await_create_api_key (cl : client) : M (gmap string string) :=
  emit (EvCreateApiKey cl);;
  match create_api_key w cl with
  | inr d => mret d
  | inl msg => raise (Exception msg)
  end.

Definition generate_api_key : M unit :=
  print ("🔑 Generating Polymarket CLOB API Key..." +:+ PyStr.nl);;
  private_key ← getenv "PRIVATE_KEY";
  private_key ←
    (if negb (PyStr.truthy private_key) then
       print "❌ Error: PRIVATE_KEY not found in .env file";;
       print (PyStr.nl +:+ "Please add your private key to the .env file:");;
       print ("PRIVATE_KEY=0x..." +:+ PyStr.nl);;
       sys_exit 1
     else mret (default EmptyString private_key));
  private_key ←
    (if negb (PyStr.startswith private_key "0x") then
       print "ℹ️  Adding '0x' prefix to private key";;
       mret ("0x" +:+ private_key)
     else mret private_key);
  try_except
    (print "📝 Creating CLOB client...";;
     client ← ClobClient "https://clob.polymarket.com" 137 private_key;
     print ("   Connected to Polymarket CLOB" +:+ PyStr.nl);;
     print "🔐 Creating API credentials...";;
     try_except
       (api_creds ← await_create_api_key client;
        print (PyStr.nl +:+ "✅ SUCCESS! API Key created successfully!" +:+ PyStr.nl);;
        print (PyStr.repeat "═" 60);;
        print "API Credentials:";;
        print (PyStr.repeat "═" 60);;
        v ← getitem api_creds "apiKey"; print ("API Key:    " +:+ v);;
        v ← getitem api_creds "secret"; print ("Secret:     " +:+ v);;
        v ← getitem api_creds "passphrase"; print ("Passphrase: " +:+ v);;
        print (PyStr.repeat "═" 60);;
        print (PyStr.nl +:+ "Please add these to your .env file:" +:+ PyStr.nl);;
        v ← getitem api_creds "apiKey"; print ("CLOB_API_KEY=" +:+ v);;
        v ← getitem api_creds "secret"; print ("CLOB_SECRET=" +:+ v);;
        v ← getitem api_creds "passphrase"; print ("CLOB_PASSPHRASE=" +:+ v))
       (fun e =>
          print (PyStr.nl +:+ "❌ FAILED to create API Key:");;
          print ("   " +:+ str e);;
          if PyStr.contains "400" (str e) then
            print (PyStr.nl +:+ "Possible causes:");;
            print "1. Wallet needs to be initialized (try logging in on polymarket.com first)";;
            print "2. Wallet needs a small amount of MATIC";;
            print "3. System time is out of sync"
          else mret tt))
    (fun e => print (PyStr.nl +:+ "❌ Error initializing client: " +:+ str e)).

End Script.

(** [asyncio.run(generate_api_key())] as the whole process.  The coroutine
    starts on an empty trace.  The interpreter exits with status 0 when the
    coroutine returns, with the code of a [SystemExit] that escapes, and
    with status 1 (after a traceback) for any other escaping exception. *)
Definition exit_status (o : outcome unit) : Z :=
  match o with
  | Returned _ => 0
  | Exited code => code
  | Raised _ => 1
  end.

Definition result (w : world) : outcome unit := fst (generate_api_key w []).
Definition trace (w : world) : list event := snd (generate_api_key w []).
Definition exit_code (w : world) : Z := exit_status (result w).

(** ** What is written on standard output *)

(** [print] writes its argument and a line terminator; the other events
    write nothing. *)
Fixpoint stdout (t : list event) : string :=
  match t with
  | [] => EmptyString
  | EvPrint text :: t' => text +:+ PyStr.nl +:+ stdout t'
  | _ :: t' => stdout t'
  end.

(** [line] occupies a whole line (or run of lines) of [out]: it starts at
    the beginning of the text or right after a line terminator, and is
    followed by a line terminator. *)
Definition has_line (out line : string) : Prop :=
  exists pre post,
    out = pre +:+ line +:+ PyStr.nl +:+ post /\
    (pre = EmptyString \/ exists pre', pre = pre' +:+ PyStr.nl).

(** [needle] occurs somewhere in [s]. *)
Definition substring_of (needle s : string) : Prop :=
  exists pre post, s = pre +:+ needle +:+ post.

(** The clients handed to the constructor and to the provisioning call. *)
Definition constructed (t : list event) : list client :=
  flat_map (fun ev => match ev with EvClobClient c => [c] | _ => [] end) t.

Definition provisioning_calls (t : list event) : list client :=
  flat_map (fun ev => match ev with EvCreateApiKey c => [c] | _ => [] end) t.

Definition printed (t : list event) : list string :=
  flat_map (fun ev => match ev with EvPrint s => [s] | _ => [] end) t.

(** [setenv name value] before the run. *)
Definition setenv (name value : string) (w : world) : world :=
  World (<[name := value]> (environ w)) (ClobClient_init w) (create_api_key w).

(** ** The paths of a run *)

(** The secret with the two-character prefix in front unless it is there
    already. *)
Definition with_0x (pk : string) : string :=
  if PyStr.startswith pk "0x" then pk else "0x" +:+ pk.

(** The client the script asks for when the environment holds [pk]. *)
Definition session (pk : string) : client :=
  Client "https://clob.polymarket.com" 137 (with_0x pk).

Definition greeting : event :=
  EvPrint ("🔑 Generating Polymarket CLOB API Key..." +:+ PyStr.nl).

Definition remediation : list event :=
  [ EvPrint "❌ Error: PRIVATE_KEY not found in .env file";
    EvPrint (PyStr.nl +:+ "Please add your private key to the .env file:");
    EvPrint ("PRIVATE_KEY=0x..." +:+ PyStr.nl) ].

(** Everything up to and including the constructor call. *)
Definition opening (pk : string) : list event :=
  greeting ::
  (if PyStr.startswith pk "0x" then []
   else [EvPrint "ℹ️  Adding '0x' prefix to private key"]) ++
  [ EvPrint "📝 Creating CLOB client..."; EvClobClient (session pk) ].

(** From the return of the constructor to the provisioning call. *)
Definition connected (pk : string) : list event :=
  [ EvPrint ("   Connected to Polymarket CLOB" +:+ PyStr.nl);
    EvPrint "🔐 Creating API credentials...";
    EvCreateApiKey (session pk) ].

Definition rule : event := EvPrint (PyStr.repeat "═" 60).

Definition success_header : list event :=
  [ EvPrint (PyStr.nl +:+ "✅ SUCCESS! API Key created successfully!" +:+ PyStr.nl);
    rule; EvPrint "API Credentials:"; rule ].

(** The human-readable block (after its header) and the three
    [NAME=value] lines. *)
Definition credentials (k s p : string) : list event :=
  [ EvPrint ("API Key:    " +:+ k);
    EvPrint ("Secret:     " +:+ s);
    EvPrint ("Passphrase: " +:+ p);
    rule;
    EvPrint (PyStr.nl +:+ "Please add these to your .env file:" +:+ PyStr.nl);
    EvPrint ("CLOB_API_KEY=" +:+ k);
    EvPrint ("CLOB_SECRET=" +:+ s);
    EvPrint ("CLOB_PASSPHRASE=" +:+ p) ].

(** The three heuristic causes, as printed. *)
Definition possible_causes : list string :=
  [ "1. Wallet needs to be initialized (try logging in on polymarket.com first)";
    "2. Wallet needs a small amount of MATIC";
    "3. System time is out of sync" ].

Definition failed_banner : string := PyStr.nl +:+ "❌ FAILED to create API Key:".

(** What the inner handler prints for an exception with text [msg]. *)
Definition failure (msg : string) : list event :=
  [ EvPrint failed_banner; EvPrint ("   " +:+ msg) ] ++
  (if PyStr.contains "400" msg
   then EvPrint (PyStr.nl +:+ "Possible causes:") :: map EvPrint possible_causes
   else []).

Definition init_error (msg : string) : event :=
  EvPrint (PyStr.nl +:+ "❌ Error initializing client: " +:+ msg).

(** What is printed between the header and the handler when the field
    [missing] is the first one absent from the result [d]. *)
Definition shown_before (d : gmap string string) (missing : string)
    (shown : list event) : Prop :=
  (missing = "apiKey" /\ d !! "apiKey" = None /\ shown = []) \/
  (exists k, missing = "secret" /\ d !! "apiKey" = Some k /\
     d !! "secret" = None /\ shown = [EvPrint ("API Key:    " +:+ k)]) \/
  (exists k s, missing = "passphrase" /\ d !! "apiKey" = Some k /\
     d !! "secret" = Some s /\ d !! "passphrase" = None /\
     shown = [EvPrint ("API Key:    " +:+ k); EvPrint ("Secret:     " +:+ s)]).

(** The five ways a run can go, with the trace and the outcome of each. *)
Inductive path (w : world) : list event -> outcome unit -> Prop :=
| path_missing :
    PyStr.truthy (environ w !! "PRIVATE_KEY") = false ->
    path w (greeting :: remediation) (Exited 1)
| path_init_error pk msg :
    environ w !! "PRIVATE_KEY" = Some pk -> pk <> EmptyString ->
    ClobClient_init w (session pk) = Some msg ->
    path w (opening pk ++ [init_error msg]) (Returned tt)
| path_create_error pk msg :
    environ w !! "PRIVATE_KEY" = Some pk -> pk <> EmptyString ->
    ClobClient_init w (session pk) = None ->
    create_api_key w (session pk) = inl msg ->
    path w (opening pk ++ connected pk ++ failure msg) (Returned tt)
| path_key_error pk d missing shown :
    environ w !! "PRIVATE_KEY" = Some pk -> pk <> EmptyString ->
    ClobClient_init w (session pk) = None ->
    create_api_key w (session pk) = inr d ->
    shown_before d missing shown ->
    path w (opening pk ++ connected pk ++ success_header ++ shown ++
            failure (PyStr.repr missing)) (Returned tt)
| path_success pk d k s p :
    environ w !! "PRIVATE_KEY" = Some pk -> pk <> EmptyString ->
    ClobClient_init w (session pk) = None ->
    create_api_key w (session pk) = inr d ->
    d !! "apiKey" = Some k -> d !! "secret" = Some s ->
    d !! "passphrase" = Some p ->
    path w (opening pk ++ connected pk ++ success_header ++ credentials k s p)
         (Returned tt).

(** ** Sample worlds *)

Module Samples.

Definition bare : gmap string string := {[ "PRIVATE_KEY" := "ab12" ]}.

Definition the_client : client :=
  Client "https://clob.polymarket.com" 137 "0xab12".

Definition triple : gmap string string :=
  list_to_map [("apiKey", "K"); ("secret", "S"); ("passphrase", "P")].

(** No [PRIVATE_KEY] at all. *)
Definition no_secret : world :=
  World ∅ (fun _ => None) (fun _ => inr triple).

(** The constructor raises. *)
Definition refused : world :=
  World bare (fun _ => Some "invalid private key") (fun _ => inr triple).

(** The provisioning call raises, with a text that holds [400]. *)
Definition rejected : world :=
  World bare (fun _ => None) (fun _ => inl "status_code=400, bad request").

(** The provisioning call returns the three fields. *)
Definition granted : world :=
  World bare (fun _ => None) (fun _ => inr triple).

(** The provisioning call returns a result without [secret]. *)
Definition truncated : world :=
  World bare (fun _ => None) (fun _ => inr {[ "apiKey" := "K" ]}).

(** [PRIVATE_KEY] is set, to the empty string. *)
Definition blank : world :=
  World {[ "PRIVATE_KEY" := EmptyString ]} (fun _ => None) (fun _ => inr triple).

(** Another secret, and the same library. *)
Definition granted_other : world :=
  World {[ "PRIVATE_KEY" := "cd34ef" ]} (fun _ => None) (fun _ => inr triple).

(** A secret with the prefix in upper case. *)
Definition upper : world :=
  World {[ "PRIVATE_KEY" := "0Xab12" ]} (fun _ => None) (fun _ => inr triple).

(** The provisioning call raises, with a text that does not hold [400]. *)
Definition timed_out : world :=
  World bare (fun _ => None) (fun _ => inl "connection timed out").

End Samples.

(** ** Start-up of the module *)

(** Lines 18-20, on [sys.path] as the list of its entries:
    [if str(project_root) not in sys.path:
         sys.path.insert(0, str(project_root))].
    [project_root] is [str(Path(__file__).parent.parent)]. *)
Definition insert_project_root (project_root : string)
    (sys_path : list string) : list string :=
  if negb (bool_decide (project_root ∈ sys_path))
  then project_root :: sys_path
  else sys_path.

(** ** Facts about strings *)

Section Strings.

Lemma app_cons (x : ascii) (a b : string) :
  String x a +:+ b = String x (a +:+ b).
Proof. reflexivity. Qed.

Lemma app_assoc_str (a b c : string) : (a +:+ b) +:+ c = a +:+ (b +:+ c).
Proof.
  induction a as [|x a IH]; [reflexivity|].
  now rewrite !app_cons, IH.
Qed.

Lemma app_empty_r (a : string) : a +:+ EmptyString = a.
Proof.
  induction a as [|x a IH]; [reflexivity|].
  now rewrite app_cons, IH.
Qed.

Lemma startswith_app (s p : string) :
  PyStr.startswith s p = true <-> exists r, s = p +:+ r.
Proof.
  revert s. induction p as [|c p IH]; intros s.
  - split; [intros _; now exists s | now destruct s].
  - destruct s as [|d s]; cbn [PyStr.startswith].
    + split; [discriminate | intros [r Hr]; discriminate].
    + destruct (Ascii.eqb_spec c d) as [->|Hne].
      * rewrite IH. split; intros [r Hr]; exists r;
          rewrite ?app_cons in *; congruence.
      * split; [discriminate |].
        intros [r Hr]. rewrite app_cons in Hr. congruence.
Qed.

Lemma contains_substring (needle s : string) :
  PyStr.contains needle s = true <-> substring_of needle s.
Proof.
  unfold substring_of. induction s as [|d s IH]; cbn [PyStr.contains].
  - rewrite orb_false_r, startswith_app. split.
    + intros [r Hr]. now exists EmptyString, r.
    + intros (pre & post & H). destruct pre as [|x pre].
      * now exists post.
      * rewrite app_cons in H. discriminate.
  - rewrite orb_true_iff, startswith_app, IH. split.
    + intros [[r Hr] | (pre & post & H)].
      * now exists EmptyString, r.
      * exists (String d pre), post. rewrite app_cons. congruence.
    + intros (pre & post & H). destruct pre as [|x pre].
      * left. now exists post.
      * right. exists pre, post. rewrite app_cons in H. congruence.
Qed.

Lemma startswith_self_app (p r : string) : PyStr.startswith (p +:+ r) p = true.
Proof. apply startswith_app. now exists r. Qed.

(** A printed text is a line of the output. *)
Lemma printed_has_line (t : list event) (text : string) :
  In (EvPrint text) t -> has_line (stdout t) text.
Proof.
  induction t as [|ev t IH]; [intros []|].
  intros [-> | Hin].
  - exists EmptyString, (stdout t). split; [reflexivity | now left].
  - destruct (IH Hin) as (pre & post & Heq & Hpre).
    destruct ev as [s | c | c]; cbn [stdout]; try (exists pre, post; now split).
    exists (s +:+ PyStr.nl +:+ pre), post. split.
    + rewrite Heq, !app_assoc_str. reflexivity.
    + right. destruct Hpre as [-> | [pre' ->]].
      * exists s. now rewrite app_empty_r.
      * exists (s +:+ PyStr.nl +:+ pre'). now rewrite !app_assoc_str.
Qed.

End Strings.

(** ** Running the script *)

Ltac unfold_script :=
  cbv [trace result generate_api_key getenv ClobClient
       await_create_api_key try_except print emit sys_exit raise getitem
       mbind M_bind mret M_ret fst snd default from_option id].

(** One step of case analysis on what the world answers. *)
Ltac case_world w :=
  match goal with
  | |- context [ClobClient_init w ?c] =>
      let H := fresh "Hinit" in destruct (ClobClient_init w c) eqn:H
  | |- context [create_api_key w ?c] =>
      let H := fresh "Hcreate" in destruct (create_api_key w c) eqn:H
  | |- context [PyStr.contains "400" ?m] =>
      is_var m;
      let H := fresh "H400" in destruct (PyStr.contains "400" m) eqn:H
  | |- context [@lookup _ _ (gmap string string) _ ?k ?d] =>
      let H := fresh "Hfield" in destruct (d !! k) eqn:H
  end.

Lemma no_400_apiKey : PyStr.contains "400" (PyStr.repr "apiKey") = false.
Proof. reflexivity. Qed.

Lemma no_400_secret : PyStr.contains "400" (PyStr.repr "secret") = false.
Proof. reflexivity. Qed.

Lemma no_400_passphrase : PyStr.contains "400" (PyStr.repr "passphrase") = false.
Proof. reflexivity. Qed.

Ltac no_400 :=
  rewrite ?no_400_apiKey, ?no_400_secret, ?no_400_passphrase.

Ltac use_tests :=
  repeat match goal with
    | E : PyStr.startswith _ _ = _ |- _ => rewrite E
    | E : PyStr.contains _ _ = _ |- _ => rewrite E
    end.

Ltac use_tests_in H :=
  repeat match goal with
    | E : PyStr.startswith _ _ = _ |- _ => rewrite E in H
    | E : PyStr.contains _ _ = _ |- _ => rewrite E in H
    end.

(** Close a goal [path w t o] whose trace is written out, from the
    constructor [c] of the path taken. *)
Ltac by_path c :=
  let H := fresh "Hpath" in
  eassert (H : path _ _ _) by
    (eapply c; unfold session, with_0x, shown_before; use_tests; eauto 12);
  unfold opening, connected, failure, session, with_0x in H;
  use_tests_in H;
  rewrite ?no_400_apiKey, ?no_400_secret, ?no_400_passphrase in H;
  exact H.

(** Every run takes one of the five paths. *)
Lemma run_path (w : world) : path w (trace w) (result w).
Proof.
  unfold_script.
  destruct (environ w !! "PRIVATE_KEY") as [[|a pk]|] eqn:Henv;
    cbn [PyStr.truthy negb app]; try (now apply path_missing; rewrite Henv).
  assert (Hne : String a pk <> EmptyString) by discriminate.
  revert Henv Hne. generalize (String a pk) as key0. intros key0 Henv Hne.
  destruct (PyStr.startswith key0 "0x") eqn:Hp; cbn [negb app];
    repeat (first [case_world w | progress no_400]; cbn [negb app str]).
  all: first
    [ by_path (path_init_error w key0)
    | by_path (path_create_error w key0)
    | by_path (path_success w key0)
    | by_path (path_key_error w key0) ].
Qed.

(** ** Reading a trace *)

Section Traces.

Lemma In_constructed (c : client) (t : list event) :
  In (EvClobClient c) t <-> In c (constructed t).
Proof.
  unfold constructed. rewrite in_flat_map. split.
  - intros H. exists (EvClobClient c). split; [exact H | now left].
  - intros ([s | c' | c'] & Hin & Hc); cbn in Hc; try tauto.
    destruct Hc as [-> | []]. exact Hin.
Qed.

Lemma In_provisioning (c : client) (t : list event) :
  In (EvCreateApiKey c) t <-> In c (provisioning_calls t).
Proof.
  unfold provisioning_calls. rewrite in_flat_map. split.
  - intros H. exists (EvCreateApiKey c). split; [exact H | now left].
  - intros ([s | c' | c'] & Hin & Hc); cbn in Hc; try tauto.
    destruct Hc as [-> | []]. exact Hin.
Qed.

Lemma In_printed (s : string) (t : list event) :
  In (EvPrint s) t <-> In s (printed t).
Proof.
  unfold printed. rewrite in_flat_map. split.
  - intros H. exists (EvPrint s). split; [exact H | now left].
  - intros ([s' | c' | c'] & Hin & Hc); cbn in Hc; try tauto.
    destruct Hc as [-> | []]. exact Hin.
Qed.

(** Every event is a printed line, a constructor call or a provisioning
    call. *)
Lemma events_partition (t : list event) :
  length t =
    (length (printed t) + length (constructed t) +
     length (provisioning_calls t))%nat.
Proof.
  unfold printed, constructed, provisioning_calls.
  induction t as [|[s|c|c] t IH]; cbn [flat_map app length]; lia.
Qed.

Lemma constructed_app (t u : list event) :
  constructed (t ++ u) = constructed t ++ constructed u.
Proof. apply flat_map_app. Qed.

Lemma provisioning_app (t u : list event) :
  provisioning_calls (t ++ u) = provisioning_calls t ++ provisioning_calls u.
Proof. apply flat_map_app. Qed.

Lemma printed_app (t u : list event) :
  printed (t ++ u) = printed t ++ printed u.
Proof. apply flat_map_app. Qed.

Lemma constructed_opening (pk : string) :
  constructed (opening pk) = [session pk].
Proof. unfold opening. now destruct (PyStr.startswith pk "0x"). Qed.

Lemma provisioning_opening (pk : string) :
  provisioning_calls (opening pk) = [].
Proof. unfold opening. now destruct (PyStr.startswith pk "0x"). Qed.

Lemma constructed_failure (msg : string) : constructed (failure msg) = [].
Proof. unfold failure. now destruct (PyStr.contains "400" msg). Qed.

Lemma provisioning_failure (msg : string) :
  provisioning_calls (failure msg) = [].
Proof. unfold failure. now destruct (PyStr.contains "400" msg). Qed.

Lemma printed_failure (msg : string) :
  printed (failure msg) =
  [failed_banner; "   " +:+ msg] ++
  (if PyStr.contains "400" msg
   then (PyStr.nl +:+ "Possible causes:") :: possible_causes else []).
Proof. unfold failure. now destruct (PyStr.contains "400" msg). Qed.

Lemma constructed_shown d missing shown :
  shown_before d missing shown -> constructed shown = [].
Proof.
  intros [(_ & _ & ->) | [(k & _ & _ & _ & ->) | (k & s & _ & _ & _ & _ & ->)]];
    reflexivity.
Qed.

Lemma provisioning_shown d missing shown :
  shown_before d missing shown -> provisioning_calls shown = [].
Proof.
  intros [(_ & _ & ->) | [(k & _ & _ & _ & ->) | (k & s & _ & _ & _ & _ & ->)]];
    reflexivity.
Qed.

Lemma shown_missing d missing shown :
  shown_before d missing shown ->
  In missing ["apiKey"; "secret"; "passphrase"] /\ d !! missing = None.
Proof.
  intros [(-> & H & _) | [(k & -> & _ & H & _) | (k & s & -> & _ & _ & H & _)]];
    cbn [In]; auto.
Qed.

(** None of the causes is printed ahead of the handler. *)
Lemma shown_no_cause d missing shown cause :
  shown_before d missing shown ->
  In cause possible_causes -> ~ In cause (printed shown).
Proof.
  intros [(_ & _ & ->) | [(k & _ & _ & _ & ->) | (k & s & _ & _ & _ & _ & ->)]]
    Hc Hin; cbn [printed flat_map app In] in Hin.
  - exact Hin.
  - destruct Hin as [Hin | []]. subst cause.
    cbn [possible_causes In] in Hc. intuition discriminate.
  - destruct Hin as [Hin | [Hin | []]]; subst cause;
      cbn [possible_causes In] in Hc; intuition discriminate.
Qed.

End Traces.

Create Rewrite HintDb traces.

#[global] Hint Rewrite
  constructed_app provisioning_app printed_app
  constructed_opening provisioning_opening
  constructed_failure provisioning_failure : traces.

(** ** The normalised secret *)

Section Secret.

Lemma with_0x_startswith (pk : string) :
  PyStr.startswith (with_0x pk) "0x" = true.
Proof.
  unfold with_0x. destruct (PyStr.startswith pk "0x") eqn:H; [exact H|].
  apply startswith_self_app.
Qed.

Lemma with_0x_fixed (pk : string) :
  PyStr.startswith pk "0x" = true -> with_0x pk = pk.
Proof. unfold with_0x. now intros ->. Qed.

Lemma with_0x_nonempty (pk : string) : with_0x pk <> EmptyString.
Proof.
  intros H. pose proof (with_0x_startswith pk) as Hs.
  rewrite H in Hs. discriminate.
Qed.

End Secret.

(** ** What a path tells about its trace *)

Section Paths.

Variable w : world.

(** The constructor is called on every path but the first, once, for the
    session of the configured secret. *)
Lemma path_constructed t o :
  path w t o ->
  match environ w !! "PRIVATE_KEY" with
  | Some (String a pk) => constructed t = [session (String a pk)]
  | _ => constructed t = []
  end.
Proof.
  intros H; destruct H as
    [Hm | pk msg He Hne Hi | pk msg He Hne Hi Hc
     | pk d missing shown He Hne Hi Hc Hs | pk d k s p He Hne Hi Hc Hk Hs Hp].
  - destruct (environ w !! "PRIVATE_KEY") as [[|a pk]|]; try reflexivity.
    discriminate.
  - rewrite He. destruct pk; [congruence|]. now autorewrite with traces.
  - rewrite He. destruct pk; [congruence|]. now autorewrite with traces.
  - rewrite He. destruct pk; [congruence|]. autorewrite with traces.
    now rewrite (constructed_shown _ _ _ Hs).
  - rewrite He. destruct pk; [congruence|]. now autorewrite with traces.
Qed.

(** The provisioning call is made at most once, and only on the session
    the constructor has returned. *)
Lemma path_provisioning t o :
  path w t o ->
  provisioning_calls t = [] \/
  exists pk, environ w !! "PRIVATE_KEY" = Some pk /\ pk <> EmptyString /\
             ClobClient_init w (session pk) = None /\
             provisioning_calls t = [session pk].
Proof.
  intros H; destruct H as
    [Hm | pk msg He Hne Hi | pk msg He Hne Hi Hc
     | pk d missing shown He Hne Hi Hc Hs | pk d k s p He Hne Hi Hc Hk Hs Hp].
  - now left.
  - left. now autorewrite with traces.
  - right. exists pk. repeat split; trivial. now autorewrite with traces.
  - right. exists pk. repeat split; trivial. autorewrite with traces.
    now rewrite (provisioning_shown _ _ _ Hs).
  - right. exists pk. repeat split; trivial. now autorewrite with traces.
Qed.

End Paths.

Lemma falsy_secret (o : option string) :
  PyStr.truthy o = false <-> o = None \/ o = Some EmptyString.
Proof.
  destruct o as [[|a s]|]; cbn [PyStr.truthy]; split; auto.
  - discriminate.
  - intros [H | H]; discriminate.
Qed.

(** Case analysis on the path of the run of [w]; every occurrence of the
    trace and of the outcome is replaced by what the path says. *)
Ltac run_cases w :=
  let Hp := fresh "Hpath" in
  pose proof (run_path w) as Hp;
  unfold exit_code in *;
  set (t := trace w) in *; set (o := result w) in *; clearbody t o;
  inversion Hp as
    [ Hmiss Et Eo
    | pk0 msg0 Henv Hne Hinit Et Eo
    | pk0 msg0 Henv Hne Hinit Hcreate Et Eo
    | pk0 d0 missing shown Henv Hne Hinit Hcreate Hshown Et Eo
    | pk0 d0 k0 s0 p0 Henv Hne Hinit Hcreate Hk Hs Hp' Et Eo ];
  subst t o; clear Hp;
  [ apply falsy_secret in Hmiss | .. ].

(** Discard the paths that contradict what is known of the world, and
    identify the secret of the path with the one already named. *)
Ltac same_world :=
  try match goal with
    | Hm : _ \/ _, He : environ _ !! _ = Some ?pk, Hne : ?pk <> EmptyString |- _ =>
        exfalso; destruct Hm; congruence
    | Hm : _ \/ _, He : environ _ !! _ = Some (String _ _) |- _ =>
        exfalso; destruct Hm; congruence
    end;
  try match goal with
    | H1 : environ ?w !! ?n = Some ?a, H2 : environ ?w !! ?n = Some ?b |- _ =>
        let E := fresh in
        assert (E : b = a) by congruence; subst b; clear H2
    end;
  try congruence.

(** The client of a constructor event is the session of the configured
    secret. *)
Lemma constructed_session (w : world) (c : client) :
  In (EvClobClient c) (trace w) ->
  exists pk, environ w !! "PRIVATE_KEY" = Some pk /\ pk <> EmptyString /\
             c = session pk.
Proof.
  intros H. apply In_constructed in H.
  pose proof (path_constructed w _ _ (run_path w)) as Hc.
  destruct (environ w !! "PRIVATE_KEY") as [[|a pk]|];
    rewrite Hc in H; try contradiction.
  destruct H as [<- | []]. exists (String a pk). now repeat split.
Qed.

(** The client of a provisioning event is that same session, and the
    constructor has returned it. *)
Lemma provisioning_session (w : world) (c : client) :
  In (EvCreateApiKey c) (trace w) ->
  exists pk, environ w !! "PRIVATE_KEY" = Some pk /\ pk <> EmptyString /\
             ClobClient_init w (session pk) = None /\ c = session pk.
Proof.
  intros H. apply In_provisioning in H.
  destruct (path_provisioning w _ _ (run_path w))
    as [Hc | (pk & He & Hne & Hi & Hc)]; rewrite Hc in H; [contradiction|].
  destruct H as [<- | []]. exists pk. now repeat split.
Qed.

(** ** The properties of the run *)

(** C1.  When [PRIVATE_KEY] is absent from the environment, the run prints
    the greeting and the three lines of remediation text and nothing else,
    exits with status 1, and neither constructs a client nor makes the
    provisioning call. *)
Theorem missing_private_key_exits (w : world) :
  environ w !! "PRIVATE_KEY" = None ->
  trace w =
    [ EvPrint ("🔑 Generating Polymarket CLOB API Key..." +:+ PyStr.nl);
      EvPrint "❌ Error: PRIVATE_KEY not found in .env file";
      EvPrint (PyStr.nl +:+ "Please add your private key to the .env file:");
      EvPrint ("PRIVATE_KEY=0x..." +:+ PyStr.nl) ] /\
  exit_code w = 1 /\
  constructed (trace w) = [] /\
  provisioning_calls (trace w) = [].
Proof.
  intros Habsent. run_cases w; try congruence.
  repeat split; reflexivity.
Qed.

(** C3.  When the constructor raises on the client the run asks for, the
    run prints the initialization error with the text of the exception
    and never makes the provisioning call. *)
Theorem construction_failure_reported (w : world) (c : client) (msg : string) :
  In (EvClobClient c) (trace w) ->
  ClobClient_init w c = Some msg ->
  In (PyStr.nl +:+ "❌ Error initializing client: " +:+ msg) (printed (trace w)) /\
  provisioning_calls (trace w) = [].
Proof.
  intros Hev Hraise.
  destruct (constructed_session w c Hev) as (pk & He & Hpk & ->).
  clear Hev. run_cases w; same_world.
  assert (msg0 = msg) by congruence; subst msg0. split.
  - apply In_printed, in_or_app. right. now left.
  - now autorewrite with traces.
Qed.

(** C7.  On every run the provisioning call is made at most once, the
    constructor is called at most once, a provisioning call is only made
    after a constructor call, and every other event of the run is a line
    printed on the console. *)
Theorem at_most_one_provisioning_call (w : world) :
  (length (provisioning_calls (trace w)) <= 1)%nat /\
  (length (constructed (trace w)) <= 1)%nat /\
  (length (provisioning_calls (trace w)) <= length (constructed (trace w)))%nat /\
  length (trace w) =
    (length (printed (trace w)) + length (constructed (trace w)) +
     length (provisioning_calls (trace w)))%nat.
Proof.
  enough (Hcount :
    (length (provisioning_calls (trace w)) <= 1)%nat /\
    (length (constructed (trace w)) <= 1)%nat /\
    (length (provisioning_calls (trace w)) <= length (constructed (trace w)))%nat).
  { destruct Hcount as (H1 & H2 & H3). repeat split; trivial.
    apply events_partition. }
  pose proof (path_constructed w _ _ (run_path w)) as Hc.
  destruct (path_provisioning w _ _ (run_path w))
    as [Hp | (pk & He & Hne & Hi & Hp)]; rewrite Hp.
  - destruct (environ w !! "PRIVATE_KEY") as [[|a pk]|];
      rewrite Hc; cbn [length]; lia.
  - rewrite He in Hc. destruct pk as [|a pk]; [congruence|].
    rewrite Hc. cbn [length]. lia.
Qed.

(** C9.  Every client the run constructs, and every client it makes the
    provisioning call on, is bound to the host
    [https://clob.polymarket.com] and to the chain identifier 137,
    whatever the environment and the library do. *)
Theorem client_bound_to_fixed_endpoint (w : world) :
  Forall (fun c => host c = "https://clob.polymarket.com" /\ chain_id c = 137)
         (constructed (trace w) ++ provisioning_calls (trace w)).
Proof.
  apply List.Forall_forall. intros c Hin. apply in_app_or in Hin.
  destruct Hin as [Hin | Hin].
  - apply In_constructed, constructed_session in Hin.
    destruct Hin as (pk & _ & _ & ->). now split.
  - apply In_provisioning, provisioning_session in Hin.
    destruct Hin as (pk & _ & _ & _ & ->). now split.
Qed.

(** The provisioning call of a run and what the world answers to it fix
    the path. *)
Lemma provisioning_failed_path (w : world) (c : client) (msg : string) :
  In (EvCreateApiKey c) (trace w) -> create_api_key w c = inl msg ->
  exists pk, c = session pk /\
             trace w = opening pk ++ connected pk ++ failure msg /\
             result w = Returned tt.
Proof.
  intros Hev Hfail.
  destruct (provisioning_session w c Hev) as (pk & He & Hpk & Hi & ->).
  exists pk. split; [reflexivity|]. clear Hev.
  run_cases w; same_world.
  assert (msg0 = msg) by congruence. subst msg0. now split.
Qed.

Lemma provisioning_returned_path (w : world) (c : client) (d : gmap string string) :
  In (EvCreateApiKey c) (trace w) -> create_api_key w c = inr d ->
  exists pk, c = session pk /\ result w = Returned tt /\
    ((exists missing shown, shown_before d missing shown /\
        trace w = opening pk ++ connected pk ++ success_header ++ shown ++
                  failure (PyStr.repr missing)) \/
     (exists k s p, d !! "apiKey" = Some k /\ d !! "secret" = Some s /\
        d !! "passphrase" = Some p /\
        trace w = opening pk ++ connected pk ++ success_header ++
                  credentials k s p)).
Proof.
  intros Hev Hret.
  destruct (provisioning_session w c Hev) as (pk & He & Hpk & Hi & ->).
  exists pk. split; [reflexivity|]. clear Hev.
  run_cases w; same_world; assert (d0 = d) by congruence; subst d0;
    (split; [reflexivity|]).
  - left. now exists missing, shown.
  - right. now exists k0, s0, p0.
Qed.

(** A result that has the three fields leaves no field to miss. *)
Lemma shown_before_complete (d : gmap string string) missing shown k s p :
  d !! "apiKey" = Some k -> d !! "secret" = Some s ->
  d !! "passphrase" = Some p -> ~ shown_before d missing shown.
Proof.
  intros Hk Hs Hp
    [(_ & H & _) | [(k' & _ & _ & H & _) | (k' & s' & _ & _ & _ & H & _)]];
    congruence.
Qed.

(** C2.  With a non-empty [PRIVATE_KEY] of value [pk], the secret handed to
    the constructor is [pk] itself when [pk] starts with [0x], and [0x]
    followed by [pk] otherwise.  The normalisation is idempotent: a run
    whose [PRIVATE_KEY] is the secret handed to the constructor hands that
    same secret to the constructor, and [with_0x] applied twice is
    [with_0x] applied once, for every string. *)
Theorem private_key_normalization (w : world) (pk : string) :
  environ w !! "PRIVATE_KEY" = Some pk -> pk <> EmptyString ->
  map key (constructed (trace w)) =
    [if PyStr.startswith pk "0x" then pk else "0x" +:+ pk] /\
  (forall k, map key (constructed (trace w)) = [k] ->
     map key (constructed (trace (setenv "PRIVATE_KEY" k w))) = [k]) /\
  (forall s, with_0x (with_0x s) = with_0x s).
Proof.
  intros He Hne.
  assert (Hrun : forall w' s, environ w' !! "PRIVATE_KEY" = Some s ->
            s <> EmptyString -> map key (constructed (trace w')) = [with_0x s]).
  { intros w' s Hs Hnes.
    pose proof (path_constructed w' _ _ (run_path w')) as Hc.
    rewrite Hs in Hc. destruct s as [|a s]; [congruence|].
    now rewrite Hc. }
  assert (Hidem : forall s, with_0x (with_0x s) = with_0x s).
  { intros s. apply with_0x_fixed, with_0x_startswith. }
  split; [exact (Hrun w pk He Hne)|]. split; [|exact Hidem].
  intros k Hk. rewrite (Hrun w pk He Hne) in Hk.
  assert (k = with_0x pk) by congruence. subst k.
  rewrite (Hrun (setenv "PRIVATE_KEY" (with_0x pk) w) (with_0x pk)).
  - now rewrite Hidem.
  - apply lookup_insert_eq.
  - apply with_0x_nonempty.
Qed.

(** C4.  When the provisioning call returns a result whose fields
    [apiKey], [secret] and [passphrase] are [k], [s] and [p], standard
    output has the lines [CLOB_API_KEY=k], [CLOB_SECRET=s] and
    [CLOB_PASSPHRASE=p], and the three lines of the human-readable block. *)
Theorem success_prints_credentials (w : world) (c : client)
    (d : gmap string string) (k s p : string) :
  In (EvCreateApiKey c) (trace w) -> create_api_key w c = inr d ->
  d !! "apiKey" = Some k -> d !! "secret" = Some s ->
  d !! "passphrase" = Some p ->
  has_line (stdout (trace w)) ("CLOB_API_KEY=" +:+ k) /\
  has_line (stdout (trace w)) ("CLOB_SECRET=" +:+ s) /\
  has_line (stdout (trace w)) ("CLOB_PASSPHRASE=" +:+ p) /\
  has_line (stdout (trace w)) "API Credentials:" /\
  has_line (stdout (trace w)) ("API Key:    " +:+ k) /\
  has_line (stdout (trace w)) ("Secret:     " +:+ s) /\
  has_line (stdout (trace w)) ("Passphrase: " +:+ p).
Proof.
  intros Hev Hret Hk Hs Hp.
  destruct (provisioning_returned_path w c d Hev Hret)
    as (pk & _ & _ & [(missing & shown & Hsh & _) | (k' & s' & p' & Hk' & Hs' & Hp' & ->)]).
  { now destruct (shown_before_complete d missing shown k s p). }
  assert (k' = k) by congruence. assert (s' = s) by congruence.
  assert (p' = p) by congruence. subst k' s' p'.
  repeat split; apply printed_has_line;
    do 2 (apply in_or_app; right); apply in_or_app;
    cbn [success_header credentials In]; tauto.
Qed.

(** Apart from the handler of the provisioning failure, nothing the run
    prints is one of the causes. *)
Lemma cause_not_in_opening (pk cause : string) :
  In cause possible_causes -> ~ In cause (printed (opening pk ++ connected pk)).
Proof.
  intros Hc Hin. unfold opening in Hin.
  destruct (PyStr.startswith pk "0x");
    cbn [possible_causes In] in Hc;
    cbn [printed flat_map app greeting connected In] in Hin;
    intuition (subst cause; vm_compute in *; discriminate).
Qed.

Lemma cause_not_in_report (msg cause : string) :
  In cause possible_causes -> ~ In cause [failed_banner; "   " +:+ msg].
Proof.
  intros Hc Hin. cbn [possible_causes In] in Hc. cbn [In] in Hin.
  intuition (subst cause; vm_compute in *; discriminate).
Qed.

Lemma cause_not_in_header (cause : string) :
  In cause possible_causes -> ~ In cause (printed success_header).
Proof.
  intros Hc Hin. cbn [possible_causes In] in Hc.
  cbn [printed flat_map app success_header rule In] in Hin.
  intuition (subst cause; vm_compute in *; discriminate).
Qed.

Lemma cause_not_in_remediation (cause : string) :
  In cause possible_causes -> ~ In cause (printed (greeting :: remediation)).
Proof.
  intros Hc Hin. cbn [possible_causes In] in Hc.
  cbn [printed flat_map app greeting remediation In] in Hin.
  intuition (subst cause; vm_compute in *; discriminate).
Qed.

Lemma cause_not_init_error (msg cause : string) :
  In cause possible_causes -> ~ In cause (printed [init_error msg]).
Proof.
  intros Hc Hin. cbn [possible_causes In] in Hc.
  cbn [printed flat_map app init_error In] in Hin.
  intuition (subst cause; vm_compute in *; discriminate).
Qed.

Lemma cause_not_in_credentials (k s p cause : string) :
  In cause possible_causes -> ~ In cause (printed (credentials k s p)).
Proof.
  intros Hc Hin. cbn [possible_causes In] in Hc.
  cbn [printed flat_map app credentials rule In] in Hin.
  intuition (subst cause; vm_compute in *; discriminate).
Qed.

Lemma cause_not_in_key_error (missing cause : string) :
  In missing ["apiKey"; "secret"; "passphrase"] ->
  In cause possible_causes -> ~ In cause (printed (failure (PyStr.repr missing))).
Proof.
  intros Hm Hc Hin. rewrite printed_failure in Hin.
  assert (Hno : PyStr.contains "400" (PyStr.repr missing) = false).
  { cbn [In] in Hm. intuition (subst missing; reflexivity). }
  rewrite Hno, app_nil_r in Hin.
  now destruct (cause_not_in_report (PyStr.repr missing) cause).
Qed.

(** C5.  When the provisioning call raises an exception of text [msg],
    each of the three heuristic causes is printed if and only if ["400"]
    occurs in [msg], and then it is a line of standard output; on a run
    where the provisioning call does not raise, none of the causes is
    printed. *)
Theorem causes_printed_iff_400 (w : world) (cause : string) :
  In cause possible_causes ->
  (forall c msg,
     In (EvCreateApiKey c) (trace w) -> create_api_key w c = inl msg ->
     (In cause (printed (trace w)) <-> substring_of "400" msg)) /\
  (In cause (printed (trace w)) ->
   has_line (stdout (trace w)) cause /\
   exists c msg, In (EvCreateApiKey c) (trace w) /\ create_api_key w c = inl msg).
Proof.
  intros Hc. split; [|intros Hin; split;
                      [now apply printed_has_line, In_printed | revert Hin]].
  - intros c msg Hev Hfail.
    destruct (provisioning_failed_path w c msg Hev Hfail) as (pk & _ & -> & _).
    rewrite <- contains_substring, app_assoc, printed_app, printed_failure.
    rewrite !in_app_iff. split.
    + intros [Hin | [Hin | Hin]].
      * now destruct (cause_not_in_opening pk cause).
      * now destruct (cause_not_in_report msg cause).
      * destruct (PyStr.contains "400" msg); [reflexivity | contradiction].
    + intros ->. right. right. now right.
  - run_cases w; intros Hin.
    + now destruct (cause_not_in_remediation cause).
    + rewrite printed_app, in_app_iff in Hin. destruct Hin as [Hin | Hin].
      * destruct (cause_not_in_opening pk0 cause Hc).
        rewrite printed_app, in_app_iff. now left.
      * now destruct (cause_not_init_error msg0 cause).
    + exists (session pk0), msg0. split; [|exact Hcreate].
      apply In_provisioning. autorewrite with traces. now left.
    + exfalso. rewrite app_assoc, !printed_app, !in_app_iff in Hin.
      destruct (shown_missing d0 missing shown Hshown) as (Hm & _).
      destruct Hin as [Hin | [Hin | [Hin | Hin]]].
      * destruct (cause_not_in_opening pk0 cause Hc).
        now rewrite printed_app, in_app_iff.
      * now destruct (cause_not_in_header cause).
      * now destruct (shown_no_cause d0 missing shown cause).
      * now destruct (cause_not_in_key_error missing cause).
    + exfalso. rewrite app_assoc, !printed_app, !in_app_iff in Hin.
      destruct Hin as [Hin | [Hin | Hin]].
      * destruct (cause_not_in_opening pk0 cause Hc).
        now rewrite printed_app, in_app_iff.
      * now destruct (cause_not_in_header cause).
      * now destruct (cause_not_in_credentials k0 s0 p0 cause).
Qed.

(** C6.  The exit status is non-zero exactly when [PRIVATE_KEY] is absent
    or empty.  When the constructor raises, and when the provisioning call
    raises, the run prints the text of the exception and the exit status
    is 0. *)
Theorem nonzero_exit_only_without_secret (w : world) :
  (exit_code w <> 0 <->
   environ w !! "PRIVATE_KEY" = None \/
   environ w !! "PRIVATE_KEY" = Some EmptyString) /\
  (forall c msg,
     In (EvClobClient c) (trace w) -> ClobClient_init w c = Some msg ->
     In (PyStr.nl +:+ "❌ Error initializing client: " +:+ msg)
        (printed (trace w)) /\
     exit_code w = 0) /\
  (forall c msg,
     In (EvCreateApiKey c) (trace w) -> create_api_key w c = inl msg ->
     In ("   " +:+ msg) (printed (trace w)) /\ exit_code w = 0).
Proof.
  split; [|split].
  - run_cases w; cbn [exit_status]; split; try (intros; exact Hmiss);
      try (intros; discriminate); try (intros H; now destruct H);
      intros Hm; exfalso; destruct Hm; congruence.
  - intros c msg Hev Hraise.
    destruct (constructed_session w c Hev) as (pk & He & Hpk & ->).
    clear Hev. run_cases w; same_world.
    assert (msg0 = msg) by congruence; subst msg0. split; [|reflexivity].
    apply In_printed, in_or_app. right. now left.
  - intros c msg Hev Hfail.
    destruct (provisioning_failed_path w c msg Hev Hfail) as (pk & _ & Ht & Hr).
    unfold exit_code. rewrite Ht, Hr. split; [|reflexivity].
    rewrite app_assoc, printed_app, printed_failure, !in_app_iff.
    right. left. right. now left.
Qed.

(** C8.  Every client is constructed from a non-empty secret, made from a
    non-empty [PRIVATE_KEY].  When the
    provisioning call returns a result with the fields [apiKey], [secret]
    and [passphrase], what the run emits after the call is the header
    followed by the block and the [NAME=value] lines made of the values
    of these three fields, and nothing more. *)
Theorem secret_nonempty_and_triple_emitted (w : world) :
  (forall c, In (EvClobClient c) (trace w) ->
     key c <> EmptyString /\
     exists pk, environ w !! "PRIVATE_KEY" = Some pk /\ pk <> EmptyString) /\
  (forall c d k s p,
     In (EvCreateApiKey c) (trace w) -> create_api_key w c = inr d ->
     d !! "apiKey" = Some k -> d !! "secret" = Some s ->
     d !! "passphrase" = Some p ->
     exists before,
       trace w = before ++ EvCreateApiKey c ::
                 success_header ++ credentials k s p /\
       provisioning_calls before = []).
Proof.
  split.
  - intros c Hin. apply constructed_session in Hin.
    destruct Hin as (pk & He & Hne & ->). split.
    + apply with_0x_nonempty.
    + now exists pk.
  - intros c d k s p Hev Hret Hk Hs Hp.
    destruct (provisioning_returned_path w c d Hev Hret)
      as (pk & -> & _ & [(missing & shown & Hsh & _) | (k' & s' & p' & Hk' & Hs' & Hp' & ->)]).
    { now destruct (shown_before_complete d missing shown k s p). }
    assert (k' = k) by congruence. assert (s' = s) by congruence.
    assert (p' = p) by congruence. subst k' s' p'.
    exists (opening pk ++
            [ EvPrint ("   Connected to Polymarket CLOB" +:+ PyStr.nl);
              EvPrint "🔐 Creating API credentials..." ]).
    split.
    + unfold connected. now rewrite <- app_assoc.
    + now autorewrite with traces.
Qed.

(** C10.  When the provisioning call returns a result that lacks one of
    [apiKey], [secret] and [passphrase], the coroutine still returns: the
    [KeyError] of the first missing field is caught by the handler of the
    provisioning failure, which prints its banner and the text of the
    error, and the exit status is 0. *)
Theorem missing_field_reported_as_failure (w : world) (c : client)
    (d : gmap string string) :
  In (EvCreateApiKey c) (trace w) -> create_api_key w c = inr d ->
  d !! "apiKey" = None \/ d !! "secret" = None \/ d !! "passphrase" = None ->
  result w = Returned tt /\ exit_code w = 0 /\
  In (PyStr.nl +:+ "❌ FAILED to create API Key:") (printed (trace w)) /\
  exists field,
    In field ["apiKey"; "secret"; "passphrase"] /\ d !! field = None /\
    In ("   " +:+ str (KeyError field)) (printed (trace w)).
Proof.
  intros Hev Hret Hlack.
  destruct (provisioning_returned_path w c d Hev Hret)
    as (pk & _ & Hr & [(missing & shown & Hsh & Ht) | (k & s & p & Hk & Hs & Hp & _)]).
  2: { exfalso. destruct Hlack as [H | [H | H]]; congruence. }
  unfold exit_code. rewrite Hr, Ht. split; [reflexivity|]. split; [reflexivity|].
  assert (Hrep : forall x, In x [failed_banner; "   " +:+ PyStr.repr missing] ->
            In x (printed (opening pk ++ connected pk ++ success_header ++
                           shown ++ failure (PyStr.repr missing)))).
  { intros x Hx. rewrite !printed_app, printed_failure, !in_app_iff. auto 7. }
  split.
  - apply Hrep. now left.
  - exists missing. destruct (shown_missing d missing shown Hsh) as (Hin & Hnone).
    repeat split; trivial. apply Hrep. right. now left.
Qed.

(** ** The properties on the sample worlds *)

Ltac in_list := vm_compute; repeat first [left; reflexivity | right].

Example run_no_secret :
  printed (trace Samples.no_secret) =
    [ "🔑 Generating Polymarket CLOB API Key..." +:+ PyStr.nl;
      "❌ Error: PRIVATE_KEY not found in .env file";
      PyStr.nl +:+ "Please add your private key to the .env file:";
      "PRIVATE_KEY=0x..." +:+ PyStr.nl ] /\
  result Samples.no_secret = Exited 1.
Proof. split; vm_compute; reflexivity. Qed.

Example run_truncated :
  printed (trace Samples.truncated) =
    [ "🔑 Generating Polymarket CLOB API Key..." +:+ PyStr.nl;
      "ℹ️  Adding '0x' prefix to private key";
      "📝 Creating CLOB client...";
      "   Connected to Polymarket CLOB" +:+ PyStr.nl;
      "🔐 Creating API credentials...";
      PyStr.nl +:+ "✅ SUCCESS! API Key created successfully!" +:+ PyStr.nl;
      PyStr.repeat "═" 60;
      "API Credentials:";
      PyStr.repeat "═" 60;
      "API Key:    K";
      PyStr.nl +:+ "❌ FAILED to create API Key:";
      "   'secret'" ] /\
  result Samples.truncated = Returned tt.
Proof. split; vm_compute; reflexivity. Qed.

Lemma missing_private_key_exits_witness :
  exit_code Samples.no_secret = 1 /\
  provisioning_calls (trace Samples.no_secret) = [].
Proof.
  assert (H : environ Samples.no_secret !! "PRIVATE_KEY" = None)
    by (vm_compute; reflexivity).
  pose proof (missing_private_key_exits Samples.no_secret H) as (_ & He & _ & Hp).
  exact (conj He Hp).
Defined.

Lemma private_key_normalization_witness :
  map key (constructed (trace Samples.granted)) = ["0xab12"].
Proof.
  assert (H : environ Samples.granted !! "PRIVATE_KEY" = Some "ab12")
    by (vm_compute; reflexivity).
  assert (Hne : "ab12" <> EmptyString) by discriminate.
  exact (proj1 (private_key_normalization Samples.granted "ab12" H Hne)).
Defined.

Lemma construction_failure_reported_witness :
  In (PyStr.nl +:+ "❌ Error initializing client: " +:+ "invalid private key")
     (printed (trace Samples.refused)) /\
  provisioning_calls (trace Samples.refused) = [].
Proof.
  apply (construction_failure_reported Samples.refused Samples.the_client).
  - in_list.
  - reflexivity.
Defined.

Lemma success_prints_credentials_witness :
  has_line (stdout (trace Samples.granted)) "CLOB_API_KEY=K" /\
  has_line (stdout (trace Samples.granted)) "CLOB_SECRET=S" /\
  has_line (stdout (trace Samples.granted)) "CLOB_PASSPHRASE=P".
Proof.
  assert (Hev : In (EvCreateApiKey Samples.the_client) (trace Samples.granted))
    by in_list.
  pose proof (success_prints_credentials Samples.granted Samples.the_client
                Samples.triple "K" "S" "P" Hev eq_refl eq_refl eq_refl eq_refl)
    as (H1 & H2 & H3 & _).
  exact (conj H1 (conj H2 H3)).
Defined.

Lemma causes_printed_iff_400_witness :
  In "2. Wallet needs a small amount of MATIC" (printed (trace Samples.rejected)).
Proof.
  assert (Hc : In "2. Wallet needs a small amount of MATIC" possible_causes)
    by in_list.
  assert (Hev : In (EvCreateApiKey Samples.the_client) (trace Samples.rejected))
    by in_list.
  apply (proj1 (causes_printed_iff_400 Samples.rejected _ Hc) _ _ Hev eq_refl).
  exists "status_code=", ", bad request". reflexivity.
Defined.

Lemma nonzero_exit_only_without_secret_witness :
  exit_code Samples.refused = 0 /\ exit_code Samples.rejected = 0 /\
  exit_code Samples.no_secret <> 0.
Proof.
  split; [|split].
  - apply (proj1 (proj2 (nonzero_exit_only_without_secret Samples.refused))
             Samples.the_client "invalid private key"); [in_list | reflexivity].
  - apply (proj2 (proj2 (nonzero_exit_only_without_secret Samples.rejected))
             Samples.the_client "status_code=400, bad request");
      [in_list | reflexivity].
  - apply (proj1 (nonzero_exit_only_without_secret Samples.no_secret)).
    left. vm_compute. reflexivity.
Defined.

Lemma secret_nonempty_and_triple_emitted_witness :
  exists before,
    trace Samples.granted =
      before ++ EvCreateApiKey Samples.the_client ::
      success_header ++ credentials "K" "S" "P" /\
    provisioning_calls before = [].
Proof.
  apply (proj2 (secret_nonempty_and_triple_emitted Samples.granted)
           Samples.the_client Samples.triple "K" "S" "P");
    [in_list | reflexivity..].
Defined.

Lemma missing_field_reported_as_failure_witness :
  result Samples.truncated = Returned tt /\ exit_code Samples.truncated = 0.
Proof.
  assert (Hev : In (EvCreateApiKey Samples.the_client) (trace Samples.truncated))
    by in_list.
  assert (Hlack : ({[ "apiKey" := "K" ]} : gmap string string) !! "apiKey" = None \/
                  ({[ "apiKey" := "K" ]} : gmap string string) !! "secret" = None \/
                  ({[ "apiKey" := "K" ]} : gmap string string) !! "passphrase" = None)
    by (right; left; vm_compute; reflexivity).
  pose proof (missing_field_reported_as_failure Samples.truncated
                Samples.the_client _ Hev eq_refl Hlack) as (Hr & Hx & _).
  exact (conj Hr Hx).
Defined.

(** ** The trace of a run, from what the world answers *)

Section Determined.

Variable w : world.
Variable pk : string.
Hypothesis Henv0 : environ w !! "PRIVATE_KEY" = Some pk.
Hypothesis Hne0 : pk <> EmptyString.

Lemma trace_of_init_error (msg : string) :
  ClobClient_init w (session pk) = Some msg ->
  trace w = opening pk ++ [init_error msg] /\ result w = Returned tt.
Proof.
  intros Hi. run_cases w; same_world.
  assert (msg0 = msg) by congruence. subst msg0. now split.
Qed.

Lemma trace_of_create_error (msg : string) :
  ClobClient_init w (session pk) = None ->
  create_api_key w (session pk) = inl msg ->
  trace w = opening pk ++ connected pk ++ failure msg /\ result w = Returned tt.
Proof.
  intros Hi Hc. run_cases w; same_world.
  assert (msg0 = msg) by congruence. subst msg0. now split.
Qed.

Lemma trace_of_key_error (d : gmap string string) field seen :
  ClobClient_init w (session pk) = None ->
  create_api_key w (session pk) = inr d ->
  shown_before d field seen ->
  trace w = opening pk ++ connected pk ++ success_header ++ seen ++
            failure (PyStr.repr field) /\
  result w = Returned tt.
Proof.
  intros Gi Gc Gs. run_cases w; same_world;
    assert (d0 = d) by congruence; subst d0.
  - assert (missing = field /\ shown = seen) as [-> ->]; [|now split].
    destruct Gs as [(-> & Ga & ->) | [(k & -> & Ga & Gb & ->) | (k & s & -> & Ga & Gb & Gd & ->)]];
      destruct Hshown as [(-> & Ga' & ->) | [(k' & -> & Ga' & Gb' & ->) | (k' & s' & -> & Ga' & Gb' & Gd' & ->)]];
      try congruence; split; try reflexivity; repeat f_equal; congruence.
  - now destruct (shown_before_complete d field seen k0 s0 p0).
Qed.

Lemma trace_of_success (d : gmap string string) (k s p : string) :
  ClobClient_init w (session pk) = None ->
  create_api_key w (session pk) = inr d ->
  d !! "apiKey" = Some k -> d !! "secret" = Some s ->
  d !! "passphrase" = Some p ->
  trace w = opening pk ++ connected pk ++ success_header ++ credentials k s p /\
  result w = Returned tt.
Proof.
  intros Gi Gc Gk Gs Gp. run_cases w; same_world;
    assert (d0 = d) by congruence; subst d0.
  - now destruct (shown_before_complete d missing shown k s p).
  - assert (k0 = k) by congruence. assert (s0 = s) by congruence.
    assert (p0 = p) by congruence. subst k0 s0 p0. now split.
Qed.

End Determined.

(** ** The search path after start-up *)

(** X1.  After lines 18-20 the project root is on [sys.path]; every entry
    that was there is still there, in the same order, and nothing but the
    root is added.  A root that is new comes first; a root that was
    already listed stays where it was. *)
Theorem project_root_on_path (project_root : string) (sys_path : list string) :
  project_root ∈ insert_project_root project_root sys_path /\
  sys_path `suffix_of` insert_project_root project_root sys_path /\
  (forall entry, entry ∈ insert_project_root project_root sys_path <->
                 entry = project_root \/ entry ∈ sys_path) /\
  (project_root ∉ sys_path ->
   insert_project_root project_root sys_path = project_root :: sys_path) /\
  (project_root ∈ sys_path ->
   insert_project_root project_root sys_path = sys_path).
Proof.
  unfold insert_project_root. case_bool_decide as Hin; cbn [negb].
  - split; [exact Hin|]. split; [reflexivity|]. split; [|tauto].
    intros entry. split; [now right | now intros [-> | ?]].
  - split; [now left|]. split; [now apply suffix_cons_r|]. split; [|tauto].
    intros entry. rewrite elem_of_cons. tauto.
Qed.

(** X2.  Running lines 18-20 again changes nothing, the path grows by at
    most one entry, and a path without repeated entries stays without
    repeated entries. *)
Theorem project_root_inserted_once (project_root : string) (sys_path : list string) :
  insert_project_root project_root (insert_project_root project_root sys_path) =
    insert_project_root project_root sys_path /\
  (length (insert_project_root project_root sys_path) <= S (length sys_path))%nat /\
  (NoDup sys_path -> NoDup (insert_project_root project_root sys_path)).
Proof.
  unfold insert_project_root at 2 3 4 5.
  case_bool_decide as Hin; cbn [negb].
  - unfold insert_project_root. rewrite bool_decide_eq_true_2 by exact Hin.
    repeat split; cbn [negb length]; trivial; lia.
  - unfold insert_project_root.
    rewrite bool_decide_eq_true_2 by (now left).
    repeat split; cbn [negb length]; trivial; try lia.
    intros Hnd. now constructor.
Qed.

(** ** Further properties of the run *)

(** X3.  An empty [PRIVATE_KEY] is handled as an absent one: the same four
    lines are printed, the exit status is 1, and neither the constructor
    nor the provisioning call is reached. *)
Theorem empty_private_key_is_missing (w : world) :
  environ w !! "PRIVATE_KEY" = Some EmptyString ->
  printed (trace w) =
    [ "🔑 Generating Polymarket CLOB API Key..." +:+ PyStr.nl;
      "❌ Error: PRIVATE_KEY not found in .env file";
      PyStr.nl +:+ "Please add your private key to the .env file:";
      "PRIVATE_KEY=0x..." +:+ PyStr.nl ] /\
  exit_code w = 1 /\
  constructed (trace w) = [] /\
  provisioning_calls (trace w) = [].
Proof.
  intros Hempty. run_cases w; try congruence.
  repeat split; reflexivity.
Qed.


(** X5.  The secret handed to the constructor always starts with [0x].
    The test for the prefix is on the exact characters: a secret that
    starts with [0X] is given the prefix as well. *)
Theorem constructor_key_has_prefix (w : world) :
  (forall c, In (EvClobClient c) (trace w) ->
     PyStr.startswith (key c) "0x" = true) /\
  (forall rest, environ w !! "PRIVATE_KEY" = Some ("0X" +:+ rest) ->
     map key (constructed (trace w)) = ["0x0X" +:+ rest]).
Proof.
  split.
  - intros c Hin. apply constructed_session in Hin.
    destruct Hin as (pk & _ & _ & ->). apply with_0x_startswith.
  - intros rest Hrest.
    pose proof (path_constructed w _ _ (run_path w)) as Hc.
    rewrite Hrest in Hc. cbn in Hc. now rewrite Hc.
Qed.

(** The texts of the trace of a path, one goal for each: [Hin], a
    membership in the printed texts of a trace written with the pieces of
    the paths, becomes an equation between one text and the member. *)
Ltac each_text Hin :=
  unfold opening, connected, failure, success_header, credentials, rule,
    greeting, init_error, remediation, failed_banner in Hin;
  rewrite ?no_400_apiKey, ?no_400_secret, ?no_400_passphrase in Hin;
  repeat match type of Hin with
    | context [if PyStr.startswith ?a ?b then _ else _] =>
        destruct (PyStr.startswith a b) eqn:?
    | context [if PyStr.contains ?a ?b then _ else _] =>
        destruct (PyStr.contains a b) eqn:?
    end;
  cbn [printed flat_map app In map possible_causes] in Hin;
  repeat (destruct Hin as [Hin | Hin]); try contradiction.

(** The three shapes of [shown_before], with the names of the fields
    read so far. *)
Ltac shown_cases H :=
  destruct H as
    [ (-> & Hf1 & ->)
    | [ (kf & -> & Hf1 & Hf2 & ->)
      | (kf & sf & -> & Hf1 & Hf2 & Hf3 & ->) ] ].

(** X6.  With a non-empty [PRIVATE_KEY], the notice that the prefix is
    being added is printed exactly when the secret does not start with
    [0x]. *)
Theorem prefix_notice_iff (w : world) (pk : string) :
  environ w !! "PRIVATE_KEY" = Some pk -> pk <> EmptyString ->
  (In "ℹ️  Adding '0x' prefix to private key" (printed (trace w)) <->
   PyStr.startswith pk "0x" = false).
Proof.
  intros He Hpk. split.
  - intros Hin. destruct (PyStr.startswith pk "0x") eqn:Hst; [exfalso|reflexivity].
    run_cases w; same_world; try shown_cases Hshown;
      unfold opening in Hin; rewrite Hst in Hin;
      each_text Hin; vm_compute in Hin; discriminate.
  - intros Hst. apply In_printed.
    assert (Hop : forall rest,
              In (EvPrint "ℹ️  Adding '0x' prefix to private key")
                 (opening pk ++ rest)).
    { intros rest. apply in_or_app. left. unfold opening. rewrite Hst.
      right. now left. }
    run_cases w; same_world; apply Hop.
Qed.

Lemma printed_opening (pk : string) :
  printed (opening pk) =
    ("🔑 Generating Polymarket CLOB API Key..." +:+ PyStr.nl) ::
    (if PyStr.startswith pk "0x" then []
     else ["ℹ️  Adding '0x' prefix to private key"]) ++
    ["📝 Creating CLOB client..."].
Proof. unfold opening. now destruct (PyStr.startswith pk "0x"). Qed.

Lemma printed_connected (pk : string) :
  printed (connected pk) =
    [ "   Connected to Polymarket CLOB" +:+ PyStr.nl;
      "🔐 Creating API credentials..." ].
Proof. reflexivity. Qed.

(** X7.  What the run prints does not depend on the characters of the
    secret beyond the test for the prefix: two runs with non-empty secrets
    that both start, or both do not start, with [0x], and to which the
    library answers the same, print the same texts and exit with the same
    status. *)
Theorem output_independent_of_secret (w1 w2 : world) (pk1 pk2 : string) :
  environ w1 !! "PRIVATE_KEY" = Some pk1 -> pk1 <> EmptyString ->
  environ w2 !! "PRIVATE_KEY" = Some pk2 -> pk2 <> EmptyString ->
  PyStr.startswith pk1 "0x" = PyStr.startswith pk2 "0x" ->
  ClobClient_init w1 (session pk1) = ClobClient_init w2 (session pk2) ->
  create_api_key w1 (session pk1) = create_api_key w2 (session pk2) ->
  printed (trace w1) = printed (trace w2) /\ exit_code w1 = exit_code w2.
Proof.
  intros He1 Hn1 He2 Hn2 Hst Gi Gc.
  assert (Hop : forall rest1 rest2, printed rest1 = printed rest2 ->
            printed (opening pk1 ++ rest1) = printed (opening pk2 ++ rest2)).
  { intros rest1 rest2 Hr. now rewrite !printed_app, !printed_opening, Hst, Hr. }
  unfold exit_code.
  destruct (ClobClient_init w1 (session pk1)) as [msg|] eqn:Hi1.
  { destruct (trace_of_init_error w1 pk1 He1 Hn1 msg Hi1) as [-> ->].
    destruct (trace_of_init_error w2 pk2 He2 Hn2 msg (eq_sym Gi)) as [-> ->].
    split; [now apply Hop | reflexivity]. }
  symmetry in Gi.
  destruct (create_api_key w1 (session pk1)) as [msg|d] eqn:Hc1; symmetry in Gc.
  { destruct (trace_of_create_error w1 pk1 He1 Hn1 msg Hi1 Hc1) as [-> ->].
    destruct (trace_of_create_error w2 pk2 He2 Hn2 msg Gi Gc) as [-> ->].
    split; [now apply Hop | reflexivity]. }
  destruct (d !! "apiKey") as [k|] eqn:Hk;
    [destruct (d !! "secret") as [s|] eqn:Hs;
     [destruct (d !! "passphrase") as [p|] eqn:Hp|]|].
  - destruct (trace_of_success w1 pk1 He1 Hn1 d k s p Hi1 Hc1 Hk Hs Hp) as [-> ->].
    destruct (trace_of_success w2 pk2 He2 Hn2 d k s p Gi Gc Hk Hs Hp) as [-> ->].
    split; [now apply Hop | reflexivity].
  - assert (Hsh : shown_before d "passphrase"
              [EvPrint ("API Key:    " +:+ k); EvPrint ("Secret:     " +:+ s)]).
    { right. right. exists k, s. now repeat split. }
    destruct (trace_of_key_error w1 pk1 He1 Hn1 d _ _ Hi1 Hc1 Hsh) as [-> ->].
    destruct (trace_of_key_error w2 pk2 He2 Hn2 d _ _ Gi Gc Hsh) as [-> ->].
    split; [now apply Hop | reflexivity].
  - assert (Hsh : shown_before d "secret" [EvPrint ("API Key:    " +:+ k)]).
    { right. left. exists k. now repeat split. }
    destruct (trace_of_key_error w1 pk1 He1 Hn1 d _ _ Hi1 Hc1 Hsh) as [-> ->].
    destruct (trace_of_key_error w2 pk2 He2 Hn2 d _ _ Gi Gc Hsh) as [-> ->].
    split; [now apply Hop | reflexivity].
  - assert (Hsh : shown_before d "apiKey" []).
    { left. now repeat split. }
    destruct (trace_of_key_error w1 pk1 He1 Hn1 d _ _ Hi1 Hc1 Hsh) as [-> ->].
    destruct (trace_of_key_error w2 pk2 He2 Hn2 d _ _ Gi Gc Hsh) as [-> ->].
    split; [now apply Hop | reflexivity].
Qed.

(** X8.  When the result lacks a field, the success banner has already
    been printed when the failure banner is: both are in the output, in
    that order.  The fields read before the missing one have been printed
    as well, and no [NAME=value] line is. *)
Theorem success_banner_before_key_error (w : world) (c : client)
    (d : gmap string string) :
  In (EvCreateApiKey c) (trace w) -> create_api_key w c = inr d ->
  d !! "apiKey" = None \/ d !! "secret" = None \/ d !! "passphrase" = None ->
  (exists before between after,
     printed (trace w) =
       before ++
       [PyStr.nl +:+ "✅ SUCCESS! API Key created successfully!" +:+ PyStr.nl] ++
       between ++
       [PyStr.nl +:+ "❌ FAILED to create API Key:"] ++ after) /\
  (forall k, d !! "apiKey" = Some k ->
     In ("API Key:    " +:+ k) (printed (trace w))) /\
  (forall k s, d !! "apiKey" = Some k -> d !! "secret" = Some s ->
     In ("Secret:     " +:+ s) (printed (trace w))) /\
  (forall x, In x (printed (trace w)) -> PyStr.startswith x "CLOB_" = false).
Proof.
  intros Hev Hret Hlack.
  destruct (provisioning_returned_path w c d Hev Hret)
    as (pk & _ & _ & [(field & seen & Hsh & ->) | (k & s & p & Gk & Gs & Gp & _)]).
  2: { exfalso. destruct Hlack as [H | [H | H]]; congruence. }
  split; [|split; [|split]].
  - exists (printed (opening pk ++ connected pk)),
           (printed [rule; EvPrint "API Credentials:"; rule] ++ printed seen),
           ["   " +:+ PyStr.repr field].
    destruct (shown_missing d field seen Hsh) as (Hfield & _).
    rewrite (app_assoc (opening pk)), !printed_app, printed_failure.
    assert (Hno : PyStr.contains "400" (PyStr.repr field) = false).
    { cbn [In] in Hfield. intuition (subst field; reflexivity). }
    rewrite Hno, app_nil_r, <- !app_assoc. reflexivity.
  - intros k Gk. shown_cases Hsh; try congruence;
      assert (kf = k) by congruence; subst kf;
      rewrite !printed_app, !in_app_iff; do 3 right; left; now left.
  - intros k s Gk Gs. shown_cases Hsh; try congruence.
    assert (sf = s) by congruence; subst sf.
    rewrite !printed_app, !in_app_iff. do 3 right. left. right. now left.
  - intros x Hin. shown_cases Hsh; each_text Hin; subst x; vm_compute; reflexivity.
Qed.

(** X9.  The [NAME=value] lines come all three or not at all: if the run
    prints any text that starts with [CLOB_], then the provisioning call
    has returned a result with the three fields, and the last three texts
    of the run are the lines for [apiKey], [secret] and [passphrase], in
    that order. *)
Theorem env_lines_all_or_nothing (w : world) (x : string) :
  In x (printed (trace w)) -> PyStr.startswith x "CLOB_" = true ->
  exists c d k s p before,
    In (EvCreateApiKey c) (trace w) /\ create_api_key w c = inr d /\
    d !! "apiKey" = Some k /\ d !! "secret" = Some s /\
    d !! "passphrase" = Some p /\
    printed (trace w) =
      before ++ [ "CLOB_API_KEY=" +:+ k; "CLOB_SECRET=" +:+ s;
                  "CLOB_PASSPHRASE=" +:+ p ].
Proof.
  intros Hin Hst. run_cases w.
  1-4: exfalso; try shown_cases Hshown; each_text Hin; subst x;
       vm_compute in Hst; discriminate.
  exists (session pk0), d0, k0, s0, p0,
    (printed (opening pk0 ++ connected pk0 ++ success_header) ++
     [ "API Key:    " +:+ k0; "Secret:     " +:+ s0; "Passphrase: " +:+ p0;
       PyStr.repeat "═" 60;
       PyStr.nl +:+ "Please add these to your .env file:" +:+ PyStr.nl ]).
  repeat split; trivial.
  - apply In_provisioning. autorewrite with traces. now left.
  - rewrite !printed_app, <- !app_assoc. reflexivity.
Qed.

(** X10.  Each failure is reported by its own handler.  The text
    [Error initializing client] is printed exactly when the constructor
    raised; the banner [FAILED to create API Key] is printed exactly when
    the provisioning call was made and raised or returned a result that
    lacks a field.  A failure of the provisioning call, although it
    happens inside the outer [try], is never reported as an
    initialization error: no run prints both. *)
Theorem failure_reports_attributed (w : world) :
  ((exists msg, In (PyStr.nl +:+ "❌ Error initializing client: " +:+ msg)
                   (printed (trace w))) <->
   (exists c msg, In (EvClobClient c) (trace w) /\
                  ClobClient_init w c = Some msg)) /\
  (In (PyStr.nl +:+ "❌ FAILED to create API Key:") (printed (trace w)) <->
   (exists c, In (EvCreateApiKey c) (trace w) /\
      ((exists msg, create_api_key w c = inl msg) \/
       (exists d, create_api_key w c = inr d /\
          (d !! "apiKey" = None \/ d !! "secret" = None \/
           d !! "passphrase" = None))))) /\
  ~ ((exists msg, In (PyStr.nl +:+ "❌ Error initializing client: " +:+ msg)
                     (printed (trace w))) /\
     In (PyStr.nl +:+ "❌ FAILED to create API Key:") (printed (trace w))).
Proof.
  assert (Ginit : (exists msg, In (PyStr.nl +:+ "❌ Error initializing client: " +:+ msg)
                     (printed (trace w))) ->
                  provisioning_calls (trace w) = [] /\
                  exists c msg, In (EvClobClient c) (trace w) /\
                                ClobClient_init w c = Some msg).
  { intros [msg Hin]. run_cases w.
    1,3-5: exfalso; try shown_cases Hshown; each_text Hin;
           vm_compute in Hin; discriminate.
    split; [now autorewrite with traces|].
    exists (session pk0), msg0. split; [|exact Hinit].
    apply In_constructed. autorewrite with traces. now left. }
  assert (Gfail : In (PyStr.nl +:+ "❌ FAILED to create API Key:") (printed (trace w)) ->
                  exists c, In (EvCreateApiKey c) (trace w) /\
                    ((exists msg, create_api_key w c = inl msg) \/
                     (exists d, create_api_key w c = inr d /\
                        (d !! "apiKey" = None \/ d !! "secret" = None \/
                         d !! "passphrase" = None)))).
  { intros Hin. run_cases w.
    1,2,5: exfalso; each_text Hin; vm_compute in Hin; discriminate.
    - exists (session pk0). split.
      + apply In_provisioning. autorewrite with traces. now left.
      + left. now exists msg0.
    - exists (session pk0). split.
      + apply In_provisioning. autorewrite with traces.
        rewrite (provisioning_shown _ _ _ Hshown). now left.
      + right. exists d0. split; [exact Hcreate|].
        clear Hin. shown_cases Hshown; auto. }
  split; [|split].
  - split; [intros H; now apply Ginit|].
    intros (c & msg & Hev & Hraise). exists msg.
    destruct (constructed_session w c Hev) as (pk & He & Hpk & ->).
    destruct (trace_of_init_error w pk He Hpk msg Hraise) as [-> _].
    rewrite printed_app, in_app_iff. right. now left.
  - split; [exact Gfail|].
    intros (c & Hev & [[msg Hc] | (d & Hc & Hlack)]).
    + destruct (provisioning_failed_path w c msg Hev Hc) as (pk & _ & -> & _).
      rewrite (app_assoc (opening pk)), printed_app, printed_failure, !in_app_iff.
      right. left. now left.
    + destruct (provisioning_returned_path w c d Hev Hc)
        as (pk & _ & _ & [(field & seen & Hsh & ->) | (k & s & p & Gk & Gs & Gp & _)]).
      2: { exfalso. destruct Hlack as [H | [H | H]]; congruence. }
      rewrite !printed_app, printed_failure, !in_app_iff.
      do 4 right. left. now left.
  - intros [Hi Hf]. destruct (Ginit Hi) as [Hnone _].
    destruct (Gfail Hf) as (c & Hev & _).
    apply In_provisioning in Hev. rewrite Hnone in Hev. exact Hev.
Qed.

(** X11.  The provisioning call is made on the very client the constructor
    has returned, right after the two lines that follow the construction;
    everything before the construction and after the call is printing. *)
Theorem provisioning_follows_construction (w : world) (c : client) :
  In (EvCreateApiKey c) (trace w) ->
  ClobClient_init w c = None /\
  exists before after,
    trace w =
      before ++
      [ EvClobClient c;
        EvPrint ("   Connected to Polymarket CLOB" +:+ PyStr.nl);
        EvPrint "🔐 Creating API credentials...";
        EvCreateApiKey c ] ++ after /\
    constructed before = [] /\ provisioning_calls before = [] /\
    constructed after = [] /\ provisioning_calls after = [].
Proof.
  intros Hev.
  destruct (provisioning_session w c Hev) as (pk & He & Hpk & Hi & ->).
  split; [exact Hi|]. clear Hev.
  assert (Hop : forall rest,
            opening pk ++ connected pk ++ rest =
            (greeting ::
             (if PyStr.startswith pk "0x" then []
              else [EvPrint "ℹ️  Adding '0x' prefix to private key"]) ++
             [EvPrint "📝 Creating CLOB client..."]) ++
            [ EvClobClient (session pk);
              EvPrint ("   Connected to Polymarket CLOB" +:+ PyStr.nl);
              EvPrint "🔐 Creating API credentials...";
              EvCreateApiKey (session pk) ] ++ rest).
  { intros rest. unfold opening, connected.
    now destruct (PyStr.startswith pk "0x"). }
  assert (Hbefore : forall b : bool,
            constructed (greeting :: (if b then []
               else [EvPrint "ℹ️  Adding '0x' prefix to private key"]) ++
               [EvPrint "📝 Creating CLOB client..."]) = [] /\
            provisioning_calls (greeting :: (if b then []
               else [EvPrint "ℹ️  Adding '0x' prefix to private key"]) ++
               [EvPrint "📝 Creating CLOB client..."]) = []).
  { now intros []. }
  run_cases w; same_world; rewrite Hop; eexists _, _;
    (split; [reflexivity|]);
    destruct (Hbefore (PyStr.startswith pk "0x")) as [-> ->];
    autorewrite with traces;
    rewrite ?(constructed_shown _ _ _ Hshown), ?(provisioning_shown _ _ _ Hshown);
    now repeat split.
Qed.

(** X12.  When the provisioning call raises, the last texts of the run are
    the failure banner and the text of the exception, indented by three
    spaces and otherwise unchanged, followed by the heading and the three
    causes in their order when the text holds [400], and by nothing
    otherwise. *)
Theorem provisioning_failure_layout (w : world) (c : client) (msg : string) :
  In (EvCreateApiKey c) (trace w) -> create_api_key w c = inl msg ->
  exists before,
    printed (trace w) =
      before ++
      [PyStr.nl +:+ "❌ FAILED to create API Key:"; "   " +:+ msg] ++
      (if PyStr.contains "400" msg
       then [ PyStr.nl +:+ "Possible causes:";
              "1. Wallet needs to be initialized (try logging in on polymarket.com first)";
              "2. Wallet needs a small amount of MATIC";
              "3. System time is out of sync" ]
       else []).
Proof.
  intros Hev Hfail.
  destruct (provisioning_failed_path w c msg Hev Hfail) as (pk & _ & -> & _).
  exists (printed (opening pk ++ connected pk)).
  now rewrite (app_assoc (opening pk)), printed_app, printed_failure.
Qed.

(** ** The further properties on the sample worlds *)

Lemma empty_private_key_is_missing_witness :
  exit_code Samples.blank = 1 /\ constructed (trace Samples.blank) = [].
Proof.
  assert (H : environ Samples.blank !! "PRIVATE_KEY" = Some EmptyString)
    by (vm_compute; reflexivity).
  pose proof (empty_private_key_is_missing Samples.blank H) as (_ & He & Hc & _).
  exact (conj He Hc).
Defined.

Lemma constructor_key_has_prefix_witness :
  map key (constructed (trace Samples.upper)) = ["0x0Xab12"].
Proof.
  apply (proj2 (constructor_key_has_prefix Samples.upper) "ab12").
  vm_compute. reflexivity.
Defined.

Lemma prefix_notice_iff_witness :
  In "ℹ️  Adding '0x' prefix to private key" (printed (trace Samples.granted)).
Proof.
  assert (H : environ Samples.granted !! "PRIVATE_KEY" = Some "ab12")
    by (vm_compute; reflexivity).
  assert (Hne : "ab12" <> EmptyString) by discriminate.
  apply (proj2 (prefix_notice_iff Samples.granted "ab12" H Hne)).
  reflexivity.
Defined.

Lemma output_independent_of_secret_witness :
  printed (trace Samples.granted) = printed (trace Samples.granted_other) /\
  exit_code Samples.granted = exit_code Samples.granted_other.
Proof.
  apply (output_independent_of_secret Samples.granted Samples.granted_other
           "ab12" "cd34ef");
    first [discriminate | vm_compute; reflexivity].
Defined.

Lemma success_banner_before_key_error_witness :
  In "API Key:    K" (printed (trace Samples.truncated)).
Proof.
  assert (Hev : In (EvCreateApiKey Samples.the_client) (trace Samples.truncated))
    by in_list.
  assert (Hlack : ({[ "apiKey" := "K" ]} : gmap string string) !! "apiKey" = None \/
                  ({[ "apiKey" := "K" ]} : gmap string string) !! "secret" = None \/
                  ({[ "apiKey" := "K" ]} : gmap string string) !! "passphrase" = None)
    by (right; left; vm_compute; reflexivity).
  pose proof (success_banner_before_key_error Samples.truncated
                Samples.the_client _ Hev eq_refl Hlack) as (_ & Hk & _).
  apply (Hk "K"). vm_compute. reflexivity.
Defined.

Lemma env_lines_all_or_nothing_witness :
  exists c d k s p before,
    In (EvCreateApiKey c) (trace Samples.granted) /\
    create_api_key Samples.granted c = inr d /\
    d !! "apiKey" = Some k /\ d !! "secret" = Some s /\
    d !! "passphrase" = Some p /\
    printed (trace Samples.granted) =
      before ++ [ "CLOB_API_KEY=" +:+ k; "CLOB_SECRET=" +:+ s;
                  "CLOB_PASSPHRASE=" +:+ p ].
Proof.
  apply (env_lines_all_or_nothing Samples.granted "CLOB_SECRET=S");
    [in_list | reflexivity].
Defined.

Lemma provisioning_follows_construction_witness :
  ClobClient_init Samples.granted Samples.the_client = None /\
  exists before after,
    trace Samples.granted =
      before ++
      [ EvClobClient Samples.the_client;
        EvPrint ("   Connected to Polymarket CLOB" +:+ PyStr.nl);
        EvPrint "🔐 Creating API credentials...";
        EvCreateApiKey Samples.the_client ] ++ after /\
    constructed before = [] /\ provisioning_calls before = [] /\
    constructed after = [] /\ provisioning_calls after = [].
Proof.
  apply (provisioning_follows_construction Samples.granted Samples.the_client).
  in_list.
Defined.

Lemma provisioning_failure_layout_witness :
  exists before,
    printed (trace Samples.timed_out) =
      before ++
      [PyStr.nl +:+ "❌ FAILED to create API Key:"; "   connection timed out"].
Proof.
  assert (Hev : In (EvCreateApiKey Samples.the_client) (trace Samples.timed_out))
    by in_list.
  destruct (provisioning_failure_layout Samples.timed_out Samples.the_client
              "connection timed out" Hev eq_refl) as [before Hb].
  exists before. rewrite Hb. reflexivity.
Defined.
